(** * Timer state machines of gpotti/timercode

    Two C translation units are modelled:

    - [TimerModes] : [src/timer.c] (its header names it [timer_modes.c]), the
      variant with the [TimerMode] enumeration, [MAX_DURATION] 10 and
      procedures returning [void];
    - [Timer] : [src/unnamed/part_000] (its header names it [timer.c]), the
      variant without a mode field, [MAX_DURATION] 255 and procedures
      returning [bool].

    Every C procedure takes a pointer to the state and mutates it in place.
    It is embedded as a function from the state before the call to the state
    after it (paired with the returned [bool] where the procedure has one);
    each assignment [state->f = e] is one field update, in the order of the
    source. *)

From Stdlib Require Import ZArith List Bool Lia.
From Stdlib Require Import Ascii String DecimalString.
Import ListNotations.

Local Open Scope Z_scope.

(** ** The C type [int] *)

Module CInt.

Definition INT_MIN : Z := -2147483648.
Definition INT_MAX : Z := 2147483647.

Definition in_range (z : Z) : Prop := INT_MIN <= z <= INT_MAX.

(** Two's-complement reduction to 32 bits.  ISO C leaves signed overflow
    undefined; the model takes the wrap-around of the usual targets, and
    the statements below that involve [++] or [--] carry the bounds under
    which no overflow happens, so that they do not depend on this choice. *)
Definition wrap (z : Z) : Z := (z + 2147483648) mod 4294967296 - 2147483648.

(** [x++] and [x--] on an [int] lvalue. *)
Definition incr (z : Z) : Z := wrap (z + 1).
Definition decr (z : Z) : Z := wrap (z - 1).

End CInt.

(** ** [src/timer.c] : the variant with modes *)

Module TimerModes.

Definition MAX_DURATION : Z := 10.

Inductive TimerMode : Type :=
| MODE_DISABLED
| MODE_COUNTDOWN
| MODE_STOPWATCH.

Record TimerState : Type := mkTimerState {
  timer_value : Z;
  timer_enabled : bool;
  interrupt_flag : bool;
  timer_mode : TimerMode
}.

(** [a == b] on the enumeration. *)
Definition TimerMode_eqb (a b : TimerMode) : bool :=
  match a, b with
  | MODE_DISABLED, MODE_DISABLED => true
  | MODE_COUNTDOWN, MODE_COUNTDOWN => true
  | MODE_STOPWATCH, MODE_STOPWATCH => true
  | _, _ => false
  end.

(** Field assignments [state->f = v]. *)
Definition set_timer_value (v : Z) (state : TimerState) : TimerState :=
  mkTimerState v (timer_enabled state) (interrupt_flag state) (timer_mode state).

Definition set_timer_enabled (b : bool) (state : TimerState) : TimerState :=
  mkTimerState (timer_value state) b (interrupt_flag state) (timer_mode state).

Definition set_interrupt_flag (b : bool) (state : TimerState) : TimerState :=
  mkTimerState (timer_value state) (timer_enabled state) b (timer_mode state).

Definition set_timer_mode (m : TimerMode) (state : TimerState) : TimerState :=
  mkTimerState (timer_value state) (timer_enabled state) (interrupt_flag state) m.

Definition initTimer (state : TimerState) : TimerState :=
  let state := set_timer_value 0 state in
  let state := set_timer_enabled false state in
  let state := set_interrupt_flag false state in
  set_timer_mode MODE_DISABLED state.

Definition setCountdownTimer (state : TimerState) (value : Z) : TimerState :=
  if (0 <? value) && (value <=? MAX_DURATION) then
    let state := set_timer_value value state in
    let state := set_timer_enabled true state in
    let state := set_interrupt_flag false state in
    set_timer_mode MODE_COUNTDOWN state
  else state.

Definition decrementTimer (state : TimerState) : TimerState :=
  if timer_enabled state
     && TimerMode_eqb (timer_mode state) MODE_COUNTDOWN
     && (0 <? timer_value state)
  then set_timer_value (CInt.decr (timer_value state)) state
  else state.

Definition incrementStopwatch (state : TimerState) : TimerState :=
  if timer_enabled state && TimerMode_eqb (timer_mode state) MODE_STOPWATCH
  then set_timer_value (CInt.incr (timer_value state)) state
  else state.

Definition triggerInterrupt (state : TimerState) : TimerState :=
  if timer_enabled state
     && TimerMode_eqb (timer_mode state) MODE_COUNTDOWN
     && (timer_value state =? 0)
  then
    let state := set_interrupt_flag true state in
    let state := set_timer_enabled false state in
    set_timer_mode MODE_DISABLED state
  else state.

Definition resetTimer (state : TimerState) : TimerState :=
  let state := set_timer_value 0 state in
  let state := set_timer_enabled false state in
  let state := set_interrupt_flag false state in
  set_timer_mode MODE_DISABLED state.

(** The public interface: one constructor per procedure of the file, with
    its argument. *)
Inductive Op : Type :=
| OpInitTimer
| OpSetCountdownTimer (value : Z)
| OpDecrementTimer
| OpIncrementStopwatch
| OpTriggerInterrupt
| OpResetTimer.

Definition step (state : TimerState) (op : Op) : TimerState :=
  match op with
  | OpInitTimer => initTimer state
  | OpSetCountdownTimer value => setCountdownTimer state value
  | OpDecrementTimer => decrementTimer state
  | OpIncrementStopwatch => incrementStopwatch state
  | OpTriggerInterrupt => triggerInterrupt state
  | OpResetTimer => resetTimer state
  end.

(** A caller's sequence of calls on one state, first call first. *)
Definition run (ops : list Op) (state : TimerState) : TimerState :=
  fold_left step ops state.

(** [n] successive calls of one procedure. *)
Fixpoint repeat_call (f : TimerState -> TimerState) (n : nat)
         (state : TimerState) : TimerState :=
  match n with
  | O => state
  | S n' => repeat_call f n' (f state)
  end.

End TimerModes.

(** ** [src/unnamed/part_000] : the variant with boolean results *)

Module Timer.

Definition MAX_DURATION : Z := 255.

Record Timer : Type := mkTimer {
  value : Z;
  enabled : bool;
  interrupt_flag : bool
}.

Definition set_value (v : Z) (timer : Timer) : Timer :=
  mkTimer v (enabled timer) (interrupt_flag timer).

Definition set_enabled (b : bool) (timer : Timer) : Timer :=
  mkTimer (value timer) b (interrupt_flag timer).

Definition set_interrupt_flag (b : bool) (timer : Timer) : Timer :=
  mkTimer (value timer) (enabled timer) b.

Definition initTimer (timer : Timer) : Timer :=
  let timer := set_value 0 timer in
  let timer := set_enabled false timer in
  set_interrupt_flag false timer.

(** The procedures below return the state after the call and the [bool]
    handed back to the caller. *)
Definition setTimer (timer : Timer) (duration : Z) : Timer * bool :=
  if (0 <? duration) && (duration <=? MAX_DURATION) then
    let timer := set_value duration timer in
    let timer := set_enabled true timer in
    let timer := set_interrupt_flag false timer in
    (timer, true)
  else (timer, false).

Definition decrementTimer (timer : Timer) : Timer * bool :=
  if enabled timer && (0 <? value timer) then
    (set_value (CInt.decr (value timer)) timer, true)
  else (timer, false).

Definition triggerInterrupt (timer : Timer) : Timer * bool :=
  if enabled timer && (value timer =? 0) then
    let timer := set_interrupt_flag true timer in
    let timer := set_enabled false timer in
    (timer, true)
  else (timer, false).

Definition resetTimer (timer : Timer) : Timer :=
  let timer := set_value 0 timer in
  let timer := set_enabled false timer in
  set_interrupt_flag false timer.

Inductive Op : Type :=
| OpInitTimer
| OpSetTimer (duration : Z)
| OpDecrementTimer
| OpTriggerInterrupt
| OpResetTimer.

(** One call, the result dropped: what the call leaves in the state. *)
Definition step (timer : Timer) (op : Op) : Timer :=
  match op with
  | OpInitTimer => initTimer timer
  | OpSetTimer duration => fst (setTimer timer duration)
  | OpDecrementTimer => fst (decrementTimer timer)
  | OpTriggerInterrupt => fst (triggerInterrupt timer)
  | OpResetTimer => resetTimer timer
  end.

Definition run (ops : list Op) (timer : Timer) : Timer :=
  fold_left step ops timer.

Fixpoint repeat_call (f : Timer -> Timer * bool) (n : nat)
         (timer : Timer) : Timer :=
  match n with
  | O => timer
  | S n' => repeat_call f n' (fst (f timer))
  end.

(** How many of [n] successive calls returned [true]. *)
Fixpoint count_true (f : Timer -> Timer * bool) (n : nat)
         (timer : Timer) : nat :=
  match n with
  | O => O
  | S n' =>
      ((if snd (f timer) then 1 else 0) + count_true f n' (fst (f timer)))%nat
  end.

(** *** The demonstration driver [main]

    Standard output is the list of the texts written by the successive
    [printf] calls, first call first; the stream is their concatenation. *)

(** The character written for [\n]. *)
Definition newline : string := String (ascii_of_nat 10) EmptyString.

(** The conversion [%d]. *)
Definition format_d (z : Z) : string := NilZero.string_of_int (Z.to_int z).

(** A [bool] passed to [printf] is promoted to the [int] 0 or 1. *)
Definition int_of_bool (b : bool) : Z := if b then 1 else 0.

Definition printf_decremented (v : Z) : string :=
  ("Timer decremented: " ++ format_d v ++ newline)%string.

Definition printf_interrupt : string :=
  ("Interrupt triggered!" ++ newline)%string.

Definition printf_reset (e v i : Z) : string :=
  ("Timer reset. Enabled: " ++ format_d e ++ ", Value: " ++ format_d v
   ++ ", Interrupt: " ++ format_d i ++ newline)%string.

(** The body of the [while] loop of [main]: one decrement and one interrupt
    check, each reported when it returned [true]. *)
Definition main_loop_body (myTimer : Timer) (out : list string)
  : Timer * list string :=
  let (myTimer, decremented) := decrementTimer myTimer in
  let out :=
    if decremented then (out ++ [printf_decremented (value myTimer)])%list
    else out in
  let (myTimer, triggered) := triggerInterrupt myTimer in
  let out :=
    if triggered then (out ++ [printf_interrupt])%list else out in
  (myTimer, out).

(** [while (myTimer.enabled) { ... }], with a bound on the number of
    evaluations of the loop condition; [None] when the bound is reached
    before the condition is false. *)
Fixpoint main_loop (fuel : nat) (myTimer : Timer) (out : list string)
  : option (Timer * list string) :=
  match fuel with
  | O => None
  | S fuel' =>
      if enabled myTimer then
        let (myTimer, out) := main_loop_body myTimer out in
        main_loop fuel' myTimer out
      else Some (myTimer, out)
  end.

(** [main]: the exit status and the output.  [uninit] is the indeterminate
    content of the local [myTimer] before [initTimer] writes it. *)
Definition main (uninit : Timer) (fuel : nat) : option (Z * list string) :=
  let myTimer := initTimer uninit in
  let out := [("Initializing Timer..." ++ newline)%string] in
  let (myTimer, ok) := setTimer myTimer 5 in
  let out :=
    if ok then (out ++ [("Timer set to 5." ++ newline)%string])%list
    else (out ++ [("Failed to set timer." ++ newline)%string])%list in
  match main_loop fuel myTimer out with
  | None => None
  | Some (myTimer, out) =>
      let out := (out ++ [("Resetting Timer..." ++ newline)%string])%list in
      let myTimer := resetTimer myTimer in
      let out :=
        (out ++ [printf_reset (int_of_bool (enabled myTimer)) (value myTimer)
                              (int_of_bool (interrupt_flag myTimer))])%list in
      Some (0, out)
  end.

End Timer.

(** ** The two variants side by side *)

Module Variants.

(** The fields the two state records share. *)
Definition forget_mode (s : TimerModes.TimerState) : Timer.Timer :=
  Timer.mkTimer (TimerModes.timer_value s) (TimerModes.timer_enabled s)
                (TimerModes.interrupt_flag s).

(** The call of [src/unnamed/part_000] that stands for a call of
    [src/timer.c]; [incrementStopwatch] has none. *)
Definition counterpart (op : TimerModes.Op) : list Timer.Op :=
  match op with
  | TimerModes.OpInitTimer => [Timer.OpInitTimer]
  | TimerModes.OpSetCountdownTimer value => [Timer.OpSetTimer value]
  | TimerModes.OpDecrementTimer => [Timer.OpDecrementTimer]
  | TimerModes.OpIncrementStopwatch => []
  | TimerModes.OpTriggerInterrupt => [Timer.OpTriggerInterrupt]
  | TimerModes.OpResetTimer => [Timer.OpResetTimer]
  end.

(** A call on whose argument the two [MAX_DURATION]s agree: a duration that
    is not above the smaller bound and within the larger. *)
Definition same_verdict (op : TimerModes.Op) : Prop :=
  match op with
  | TimerModes.OpSetCountdownTimer value =>
      value <= TimerModes.MAX_DURATION \/ Timer.MAX_DURATION < value
  | _ => True
  end.

End Variants.

(** ** Kinds of calls of [src/timer.c] *)

Module Calls.

(** The calls that neither configure nor reset: the periodic ones. *)
Definition is_tick (op : TimerModes.Op) : bool :=
  match op with
  | TimerModes.OpDecrementTimer
  | TimerModes.OpIncrementStopwatch
  | TimerModes.OpTriggerInterrupt => true
  | _ => false
  end.

Definition is_decrement (op : TimerModes.Op) : bool :=
  match op with
  | TimerModes.OpDecrementTimer => true
  | _ => false
  end.

(** The number of [decrementTimer] calls in a sequence. *)
Definition decrements (ops : list TimerModes.Op) : Z :=
  Z.of_nat (List.length (filter is_decrement ops)).

End Calls.

(** * Properties *)

(** ** Arithmetic of [int] *)

Lemma wrap_in_range (z : Z) : CInt.in_range z -> CInt.wrap z = z.
Proof.
  unfold CInt.in_range, CInt.wrap, CInt.INT_MIN, CInt.INT_MAX. intros Hz.
  rewrite Z.mod_small by lia. lia.
Qed.

Lemma incr_no_overflow (z : Z) :
  CInt.INT_MIN <= z < CInt.INT_MAX -> CInt.incr z = z + 1.
Proof.
  intros Hz. unfold CInt.incr. apply wrap_in_range.
  unfold CInt.in_range. lia.
Qed.

Lemma decr_no_overflow (z : Z) :
  CInt.INT_MIN < z <= CInt.INT_MAX -> CInt.decr z = z - 1.
Proof.
  intros Hz. unfold CInt.decr. apply wrap_in_range.
  unfold CInt.in_range. lia.
Qed.

(** The three cases of a requested duration [d] against the accepted range
    [[1, hi]]: inside, above, below. *)
Ltac duration_cases d hi :=
  let Hlo := fresh "Hlo" in
  let Hhi := fresh "Hhi" in
  destruct (Z.le_gt_cases 1 d) as [Hlo | Hlo];
  [destruct (Z.le_gt_cases d hi) as [Hhi | Hhi] |].

(** ** Facts about [src/timer.c] *)

Section TimerModesFacts.

Import TimerModes.

Lemma TimerMode_eqb_eq (a b : TimerMode) : TimerMode_eqb a b = true <-> a = b.
Proof. destruct a, b; simpl; split; congruence. Qed.

Lemma TimerMode_eqb_neq (a b : TimerMode) : TimerMode_eqb a b = false <-> a <> b.
Proof. destruct a, b; simpl; split; congruence. Qed.

(** The two procedures that write every field forget the state they get. *)
Lemma initTimer_const (s : TimerState) :
  initTimer s = mkTimerState 0 false false MODE_DISABLED.
Proof. reflexivity. Qed.

Lemma resetTimer_const (s : TimerState) :
  resetTimer s = mkTimerState 0 false false MODE_DISABLED.
Proof. reflexivity. Qed.

(** Guards, as propositions. *)
Lemma setCountdownTimer_accept (s : TimerState) (v : Z) :
  1 <= v <= MAX_DURATION ->
  setCountdownTimer s v = mkTimerState v true false MODE_COUNTDOWN.
Proof.
  intros Hv. unfold setCountdownTimer.
  replace (0 <? v) with true by (symmetry; apply Z.ltb_lt; lia).
  replace (v <=? MAX_DURATION) with true by (symmetry; apply Z.leb_le; lia).
  reflexivity.
Qed.

Lemma setCountdownTimer_reject (s : TimerState) (v : Z) :
  ~ (1 <= v <= MAX_DURATION) -> setCountdownTimer s v = s.
Proof.
  intros Hv. unfold setCountdownTimer.
  destruct (0 <? v) eqn:Hlo; [|reflexivity].
  destruct (v <=? MAX_DURATION) eqn:Hhi; [|reflexivity].
  apply Z.ltb_lt in Hlo. apply Z.leb_le in Hhi. lia.
Qed.

Lemma decrementTimer_tick (s : TimerState) :
  timer_enabled s = true -> timer_mode s = MODE_COUNTDOWN ->
  0 < timer_value s <= CInt.INT_MAX ->
  decrementTimer s = set_timer_value (timer_value s - 1) s.
Proof.
  intros He Hm Hv. unfold decrementTimer. rewrite He, Hm. simpl.
  replace (0 <? timer_value s) with true by (symmetry; apply Z.ltb_lt; lia).
  rewrite decr_no_overflow; [reflexivity|].
  unfold CInt.INT_MIN. lia.
Qed.

Lemma decrementTimer_idle (s : TimerState) :
  timer_enabled s = false \/ timer_mode s <> MODE_COUNTDOWN \/ timer_value s <= 0 ->
  decrementTimer s = s.
Proof.
  intros H. unfold decrementTimer.
  destruct (timer_enabled s); simpl; [|reflexivity].
  destruct (TimerMode_eqb (timer_mode s) MODE_COUNTDOWN) eqn:Hm; simpl; [|reflexivity].
  destruct (0 <? timer_value s) eqn:Hv; [|reflexivity].
  apply TimerMode_eqb_eq in Hm. apply Z.ltb_lt in Hv.
  destruct H as [H | [H | H]]; [discriminate | contradiction | lia].
Qed.

Lemma incrementStopwatch_idle (s : TimerState) :
  timer_enabled s = false \/ timer_mode s <> MODE_STOPWATCH ->
  incrementStopwatch s = s.
Proof.
  intros H. unfold incrementStopwatch.
  destruct (timer_enabled s); simpl; [|reflexivity].
  destruct (TimerMode_eqb (timer_mode s) MODE_STOPWATCH) eqn:Hm; [|reflexivity].
  apply TimerMode_eqb_eq in Hm.
  destruct H as [H | H]; [discriminate | contradiction].
Qed.

Lemma triggerInterrupt_fire (s : TimerState) :
  timer_enabled s = true -> timer_mode s = MODE_COUNTDOWN -> timer_value s = 0 ->
  triggerInterrupt s = mkTimerState 0 false true MODE_DISABLED.
Proof.
  destruct s as [v e i m]; simpl. intros He Hm Hv. subst. reflexivity.
Qed.

Lemma triggerInterrupt_idle (s : TimerState) :
  timer_enabled s = false \/ timer_mode s <> MODE_COUNTDOWN \/ timer_value s <> 0 ->
  triggerInterrupt s = s.
Proof.
  intros H. unfold triggerInterrupt.
  destruct (timer_enabled s); simpl; [|reflexivity].
  destruct (TimerMode_eqb (timer_mode s) MODE_COUNTDOWN) eqn:Hm; simpl; [|reflexivity].
  destruct (timer_value s =? 0) eqn:Hv; [|reflexivity].
  apply TimerMode_eqb_eq in Hm. apply Z.eqb_eq in Hv.
  destruct H as [H | [H | H]]; [discriminate | contradiction | contradiction].
Qed.

(** Which procedure writes which field. *)
Lemma step_mode (s : TimerState) (op : Op) :
  timer_mode (step s op) = timer_mode s
  \/ timer_mode (step s op) = MODE_DISABLED /\ timer_enabled (step s op) = false
  \/ timer_mode (step s op) = MODE_COUNTDOWN
     /\ 1 <= timer_value (step s op) <= MAX_DURATION.
Proof.
  destruct op as [| v | | | |]; simpl.
  - right; left. split; reflexivity.
  - duration_cases v MAX_DURATION.
    + rewrite setCountdownTimer_accept by lia. right; right. simpl. split; [reflexivity|lia].
    + rewrite setCountdownTimer_reject by lia. left; reflexivity.
    + rewrite setCountdownTimer_reject by lia. left; reflexivity.
  - left. unfold decrementTimer.
    destruct (_ && _); reflexivity.
  - left. unfold incrementStopwatch.
    destruct (_ && _); reflexivity.
  - unfold triggerInterrupt.
    destruct (_ && _); [right; left; split; reflexivity | left; reflexivity].
  - right; left. split; reflexivity.
Qed.

Lemma step_keeps_non_stopwatch (s : TimerState) (op : Op) :
  timer_mode s <> MODE_STOPWATCH -> timer_mode (step s op) <> MODE_STOPWATCH.
Proof.
  intros Hs. destruct (step_mode s op) as [H | [[H _] | [H _]]];
    rewrite H; [assumption | discriminate | discriminate].
Qed.

(** Invariants of a run: what every call keeps holds after any sequence
    of calls. *)
Section RunInvariant.

Variable P : TimerState -> Prop.
Hypothesis P_step : forall s op, P s -> P (step s op).

Lemma run_invariant (ops : list Op) :
  forall s, P s -> P (run ops s).
Proof.
  unfold run. induction ops as [| op ops IH]; intros s Hs; simpl.
  - exact Hs.
  - apply IH, P_step, Hs.
Qed.

End RunInvariant.

Lemma run_non_stopwatch (ops : list Op) (s0 : TimerState) :
  timer_mode (run ops (initTimer s0)) <> MODE_STOPWATCH.
Proof.
  apply (run_invariant (fun s => timer_mode s <> MODE_STOPWATCH)).
  - intros s op. apply step_keeps_non_stopwatch.
  - simpl. discriminate.
Qed.

End TimerModesFacts.

(** ** Facts about [src/unnamed/part_000] *)

Section TimerFacts.

Import Timer.

Lemma Timer_initTimer_const (t : Timer) : initTimer t = mkTimer 0 false false.
Proof. reflexivity. Qed.

Lemma Timer_resetTimer_const (t : Timer) : resetTimer t = mkTimer 0 false false.
Proof. reflexivity. Qed.

Lemma setTimer_accept (t : Timer) (d : Z) :
  1 <= d <= MAX_DURATION -> setTimer t d = (mkTimer d true false, true).
Proof.
  intros Hd. unfold setTimer.
  replace (0 <? d) with true by (symmetry; apply Z.ltb_lt; lia).
  replace (d <=? MAX_DURATION) with true by (symmetry; apply Z.leb_le; lia).
  reflexivity.
Qed.

Lemma setTimer_reject (t : Timer) (d : Z) :
  ~ (1 <= d <= MAX_DURATION) -> setTimer t d = (t, false).
Proof.
  intros Hd. unfold setTimer.
  destruct (0 <? d) eqn:Hlo; [|reflexivity].
  destruct (d <=? MAX_DURATION) eqn:Hhi; [|reflexivity].
  apply Z.ltb_lt in Hlo. apply Z.leb_le in Hhi. lia.
Qed.

Lemma Timer_decrementTimer_tick (t : Timer) :
  enabled t = true -> 0 < value t <= CInt.INT_MAX ->
  decrementTimer t = (set_value (value t - 1) t, true).
Proof.
  intros He Hv. unfold decrementTimer. rewrite He. simpl.
  replace (0 <? value t) with true by (symmetry; apply Z.ltb_lt; lia).
  rewrite decr_no_overflow; [reflexivity|].
  unfold CInt.INT_MIN. lia.
Qed.

Lemma Timer_decrementTimer_idle (t : Timer) :
  enabled t = false \/ value t <= 0 -> decrementTimer t = (t, false).
Proof.
  intros H. unfold decrementTimer.
  destruct (enabled t); simpl; [|reflexivity].
  destruct (0 <? value t) eqn:Hv; [|reflexivity].
  apply Z.ltb_lt in Hv. destruct H as [H | H]; [discriminate | lia].
Qed.

Lemma Timer_triggerInterrupt_fire (t : Timer) :
  enabled t = true -> value t = 0 ->
  triggerInterrupt t = (mkTimer 0 false true, true).
Proof.
  destruct t as [v e i]; simpl. intros He Hv. subst. reflexivity.
Qed.

Lemma Timer_triggerInterrupt_idle (t : Timer) :
  enabled t = false \/ value t <> 0 -> triggerInterrupt t = (t, false).
Proof.
  intros H. unfold triggerInterrupt.
  destruct (enabled t); simpl; [|reflexivity].
  destruct (value t =? 0) eqn:Hv; [|reflexivity].
  apply Z.eqb_eq in Hv. destruct H as [H | H]; [discriminate | contradiction].
Qed.

Section TimerRunInvariant.

Variable P : Timer -> Prop.
Hypothesis P_step : forall t op, P t -> P (step t op).

Lemma Timer_run_invariant (ops : list Op) :
  forall t, P t -> P (run ops t).
Proof.
  unfold run. induction ops as [| op ops IH]; intros t Ht; simpl.
  - exact Ht.
  - apply IH, P_step, Ht.
Qed.

End TimerRunInvariant.

Lemma Timer_step_bounded (t : Timer) (op : Op) :
  0 <= value t <= MAX_DURATION -> 0 <= value (step t op) <= MAX_DURATION.
Proof.
  intros Ht. destruct op as [| d | | |]; simpl.
  - unfold MAX_DURATION. lia.
  - duration_cases d MAX_DURATION.
    + rewrite setTimer_accept by lia. simpl. lia.
    + rewrite setTimer_reject by lia. exact Ht.
    + rewrite setTimer_reject by lia. exact Ht.
  - destruct (enabled t) eqn:He; [destruct (Z.lt_ge_cases 0 (value t)) as [Hv|Hv]|].
    + rewrite Timer_decrementTimer_tick; simpl; try assumption.
      * lia.
      * unfold MAX_DURATION, CInt.INT_MAX in *. lia.
    + rewrite Timer_decrementTimer_idle by (right; lia). exact Ht.
    + rewrite Timer_decrementTimer_idle by (left; exact He). exact Ht.
  - unfold triggerInterrupt. destruct (_ && _); simpl; exact Ht.
  - unfold MAX_DURATION. lia.
Qed.

(** [n] ticks of a running countdown that starts at [v >= n]. *)
Lemma Timer_countdown_ticks (n : nat) :
  forall v i, Z.of_nat n <= v <= CInt.INT_MAX ->
    repeat_call decrementTimer n (mkTimer v true i)
    = mkTimer (v - Z.of_nat n) true i.
Proof.
  induction n as [| n IH]; intros v i Hv.
  - simpl. f_equal. lia.
  - cbn [repeat_call].
    rewrite Timer_decrementTimer_tick by (simpl; try reflexivity; lia).
    unfold set_value. cbn [fst value enabled interrupt_flag].
    rewrite IH by lia. f_equal. lia.
Qed.

End TimerFacts.

Section TimerModesRuns.

Import TimerModes.

Lemma step_keeps_disabled_off (s : TimerState) (op : Op) :
  (timer_mode s = MODE_DISABLED -> timer_enabled s = false) ->
  timer_mode (step s op) = MODE_DISABLED -> timer_enabled (step s op) = false.
Proof.
  intros Hs. destruct op as [| v | | | |]; simpl.
  - reflexivity.
  - duration_cases v MAX_DURATION.
    + rewrite setCountdownTimer_accept by lia. simpl. discriminate.
    + rewrite setCountdownTimer_reject by lia. exact Hs.
    + rewrite setCountdownTimer_reject by lia. exact Hs.
  - unfold decrementTimer. destruct (_ && _); simpl; exact Hs.
  - unfold incrementStopwatch. destruct (_ && _); simpl; exact Hs.
  - unfold triggerInterrupt. destruct (_ && _); simpl; [reflexivity | exact Hs].
  - reflexivity.
Qed.

(** The bound on the value is kept together with the absence of the
    stopwatch mode: [incrementStopwatch] has no bound of its own. *)
Definition bounded_non_stopwatch (s : TimerState) : Prop :=
  0 <= timer_value s <= MAX_DURATION /\ timer_mode s <> MODE_STOPWATCH.

Lemma step_keeps_bounded (s : TimerState) (op : Op) :
  bounded_non_stopwatch s -> bounded_non_stopwatch (step s op).
Proof.
  intros [Hv Hm]. split; [|apply step_keeps_non_stopwatch, Hm].
  destruct op as [| v | | | |]; simpl.
  - unfold MAX_DURATION. lia.
  - duration_cases v MAX_DURATION.
    + rewrite setCountdownTimer_accept by lia. simpl. lia.
    + rewrite setCountdownTimer_reject by lia. exact Hv.
    + rewrite setCountdownTimer_reject by lia. exact Hv.
  - unfold decrementTimer.
    destruct (timer_enabled s); simpl; [|exact Hv].
    destruct (TimerMode_eqb _ _); simpl; [|exact Hv].
    destruct (0 <? timer_value s) eqn:Hpos; [|exact Hv].
    apply Z.ltb_lt in Hpos. simpl.
    rewrite decr_no_overflow; unfold MAX_DURATION, CInt.INT_MIN, CInt.INT_MAX in *; lia.
  - rewrite incrementStopwatch_idle by (right; exact Hm). exact Hv.
  - unfold triggerInterrupt. destruct (_ && _); simpl; exact Hv.
  - unfold MAX_DURATION. lia.
Qed.

Lemma countdown_ticks (n : nat) :
  forall v i, Z.of_nat n <= v <= CInt.INT_MAX ->
    repeat_call decrementTimer n (mkTimerState v true i MODE_COUNTDOWN)
    = mkTimerState (v - Z.of_nat n) true i MODE_COUNTDOWN.
Proof.
  induction n as [| n IH]; intros v i Hv.
  - simpl. f_equal. lia.
  - cbn [repeat_call].
    rewrite decrementTimer_tick by (simpl; try reflexivity; lia).
    unfold set_timer_value. cbn [timer_value timer_enabled interrupt_flag timer_mode].
    rewrite IH by lia. f_equal. lia.
Qed.

(** [n] increments of a running stopwatch, away from [INT_MAX]. *)
Lemma stopwatch_ticks (n : nat) :
  forall v i, CInt.INT_MIN <= v -> v + Z.of_nat n <= CInt.INT_MAX ->
    repeat_call incrementStopwatch n (mkTimerState v true i MODE_STOPWATCH)
    = mkTimerState (v + Z.of_nat n) true i MODE_STOPWATCH.
Proof.
  induction n as [| n IH]; intros v i Hlo Hhi.
  - simpl. f_equal. lia.
  - cbn [repeat_call]. unfold incrementStopwatch at 2.
    unfold set_timer_value.
    cbn [timer_enabled timer_mode timer_value TimerMode_eqb andb interrupt_flag].
    rewrite incr_no_overflow by lia.
    rewrite IH by lia. f_equal. lia.
Qed.

End TimerModesRuns.

(** * The claims *)

(** ** C1 : the stopwatch increment *)

(** C1, as stated, fails: in the running stopwatch state with
    [timer_value = MAX_DURATION] the call of [incrementStopwatch] is not a
    no-op, it stores [MAX_DURATION + 1]; and fifteen calls from zero leave
    15, not [MAX_DURATION]. *)
Lemma incrementStopwatch_passes_MAX_DURATION :
  let s := TimerModes.mkTimerState 10 true false TimerModes.MODE_STOPWATCH in
  TimerModes.timer_value s = TimerModes.MAX_DURATION
  /\ TimerModes.incrementStopwatch s <> s
  /\ TimerModes.timer_value (TimerModes.incrementStopwatch s)
     = TimerModes.MAX_DURATION + 1
  /\ TimerModes.timer_value
       (TimerModes.repeat_call TimerModes.incrementStopwatch 15
          (TimerModes.mkTimerState 0 true false TimerModes.MODE_STOPWATCH))
     = TimerModes.MAX_DURATION + 5.
Proof.
  cbv zeta. repeat split.
  vm_compute. discriminate.
Qed.

(** C1 (amended): in an enabled state in stopwatch mode, each call of
    [incrementStopwatch] stores [timer_value + 1] and writes no other field,
    below [MAX_DURATION], at it and above it alike (as long as the value
    stays within [int]): [n] calls from value [v] leave [v + n], which is
    within [MAX_DURATION] exactly when [v + n <= MAX_DURATION].  The
    procedure does not saturate. *)
Theorem incrementStopwatch_counts_past_MAX_DURATION
        (s : TimerModes.TimerState) (n : nat) :
  TimerModes.timer_enabled s = true ->
  TimerModes.timer_mode s = TimerModes.MODE_STOPWATCH ->
  CInt.INT_MIN <= TimerModes.timer_value s ->
  TimerModes.timer_value s + Z.of_nat n <= CInt.INT_MAX ->
  TimerModes.repeat_call TimerModes.incrementStopwatch n s
  = TimerModes.set_timer_value (TimerModes.timer_value s + Z.of_nat n) s
  /\ (TimerModes.timer_value
        (TimerModes.repeat_call TimerModes.incrementStopwatch n s)
      <= TimerModes.MAX_DURATION
      <-> TimerModes.timer_value s + Z.of_nat n <= TimerModes.MAX_DURATION).
Proof.
  destruct s as [v e i m]. simpl. intros He Hm Hlo Hhi. subst e m.
  rewrite stopwatch_ticks by assumption.
  split; [reflexivity | simpl; tauto].
Qed.

Lemma incrementStopwatch_counts_past_MAX_DURATION_witness :
  let s := TimerModes.mkTimerState 10 true false TimerModes.MODE_STOPWATCH in
  TimerModes.incrementStopwatch s
  = TimerModes.mkTimerState 11 true false TimerModes.MODE_STOPWATCH.
Proof.
  cbv zeta.
  refine (proj1 (incrementStopwatch_counts_past_MAX_DURATION
                   (TimerModes.mkTimerState 10 true false TimerModes.MODE_STOPWATCH)
                   1 _ _ _ _)).
  - reflexivity.
  - reflexivity.
  - simpl. unfold CInt.INT_MIN. lia.
  - simpl. unfold CInt.INT_MAX. lia.
Defined.

(** ** C2 : the value stays within its bounds *)

(** C2: after any sequence of calls of the public procedures on an
    initialised state, the value lies in [[0, MAX_DURATION]]; in both
    variants, each with its own [MAX_DURATION]. *)
Theorem value_within_bounds :
  (forall (s0 : TimerModes.TimerState) (ops : list TimerModes.Op),
      0 <= TimerModes.timer_value (TimerModes.run ops (TimerModes.initTimer s0))
        <= TimerModes.MAX_DURATION)
  /\ (forall (t0 : Timer.Timer) (ops : list Timer.Op),
         0 <= Timer.value (Timer.run ops (Timer.initTimer t0))
           <= Timer.MAX_DURATION).
Proof.
  split.
  - intros s0 ops.
    apply (run_invariant bounded_non_stopwatch step_keeps_bounded ops).
    split; simpl; [unfold TimerModes.MAX_DURATION; lia | discriminate].
  - intros t0 ops.
    apply (Timer_run_invariant
             (fun t => 0 <= Timer.value t <= Timer.MAX_DURATION)
             Timer_step_bounded ops).
    simpl. unfold Timer.MAX_DURATION. lia.
Qed.

(** ** C3 : a countdown runs to its interrupt *)

(** C3: for [1 <= d <= MAX_DURATION], setting the countdown to [d] on an
    initialised state and calling the decrement [d] times leaves value 0,
    enabled, in countdown mode; the interrupt check then sets the flag,
    disables the timer and sets the mode to disabled.  In the variant whose
    procedures return a result, the check returns [true]. *)
Theorem countdown_then_interrupt
        (d : Z) (s0 : TimerModes.TimerState) (t0 : Timer.Timer) :
  1 <= d ->
  (d <= TimerModes.MAX_DURATION ->
   let s := TimerModes.repeat_call TimerModes.decrementTimer (Z.to_nat d)
              (TimerModes.setCountdownTimer (TimerModes.initTimer s0) d) in
   TimerModes.timer_value s = 0
   /\ TimerModes.timer_enabled s = true
   /\ TimerModes.timer_mode s = TimerModes.MODE_COUNTDOWN
   /\ TimerModes.interrupt_flag (TimerModes.triggerInterrupt s) = true
   /\ TimerModes.timer_enabled (TimerModes.triggerInterrupt s) = false
   /\ TimerModes.timer_mode (TimerModes.triggerInterrupt s)
      = TimerModes.MODE_DISABLED)
  /\ (d <= Timer.MAX_DURATION ->
      let t := Timer.repeat_call Timer.decrementTimer (Z.to_nat d)
                 (fst (Timer.setTimer (Timer.initTimer t0) d)) in
      Timer.value t = 0
      /\ Timer.enabled t = true
      /\ snd (Timer.triggerInterrupt t) = true
      /\ Timer.interrupt_flag (fst (Timer.triggerInterrupt t)) = true
      /\ Timer.enabled (fst (Timer.triggerInterrupt t)) = false).
Proof.
  intros Hlo. split; intros Hhi; cbv zeta.
  - rewrite setCountdownTimer_accept by lia.
    rewrite countdown_ticks
      by (unfold TimerModes.MAX_DURATION, CInt.INT_MAX in *; lia).
    rewrite Z2Nat.id, Z.sub_diag by lia.
    repeat split.
  - rewrite setTimer_accept by lia. cbn [fst].
    rewrite Timer_countdown_ticks
      by (unfold Timer.MAX_DURATION, CInt.INT_MAX in *; lia).
    rewrite Z2Nat.id, Z.sub_diag by lia.
    repeat split.
Qed.

Lemma countdown_then_interrupt_witness :
  (let s := TimerModes.repeat_call TimerModes.decrementTimer (Z.to_nat 3)
              (TimerModes.setCountdownTimer
                 (TimerModes.initTimer
                    (TimerModes.mkTimerState 7 true true TimerModes.MODE_STOPWATCH))
                 3) in
   TimerModes.timer_value s = 0
   /\ TimerModes.timer_enabled s = true
   /\ TimerModes.timer_mode s = TimerModes.MODE_COUNTDOWN
   /\ TimerModes.interrupt_flag (TimerModes.triggerInterrupt s) = true
   /\ TimerModes.timer_enabled (TimerModes.triggerInterrupt s) = false
   /\ TimerModes.timer_mode (TimerModes.triggerInterrupt s)
      = TimerModes.MODE_DISABLED)
  /\ (let t := Timer.repeat_call Timer.decrementTimer (Z.to_nat 3)
                 (fst (Timer.setTimer
                         (Timer.initTimer (Timer.mkTimer 7 true true)) 3)) in
      Timer.value t = 0
      /\ Timer.enabled t = true
      /\ snd (Timer.triggerInterrupt t) = true
      /\ Timer.interrupt_flag (fst (Timer.triggerInterrupt t)) = true
      /\ Timer.enabled (fst (Timer.triggerInterrupt t)) = false).
Proof.
  assert (H1 : 1 <= 3) by lia.
  destruct (countdown_then_interrupt 3
              (TimerModes.mkTimerState 7 true true TimerModes.MODE_STOPWATCH)
              (Timer.mkTimer 7 true true) H1) as [Hm Hb].
  split.
  - apply Hm. unfold TimerModes.MAX_DURATION. lia.
  - apply Hb. unfold Timer.MAX_DURATION. lia.
Defined.

(** ** C4 : a rejected duration *)

(** C4: a duration outside [[1, MAX_DURATION]] leaves every field of the
    state as it was, in both variants; [setTimer], the variant with a
    result, returns [false]. *)
Theorem out_of_range_duration_rejected (d : Z) :
  (~ (1 <= d <= TimerModes.MAX_DURATION) ->
   forall s : TimerModes.TimerState, TimerModes.setCountdownTimer s d = s)
  /\ (~ (1 <= d <= Timer.MAX_DURATION) ->
      forall t : Timer.Timer, Timer.setTimer t d = (t, false)).
Proof.
  split; intros Hd x.
  - apply setCountdownTimer_reject, Hd.
  - apply setTimer_reject, Hd.
Qed.

Lemma out_of_range_duration_rejected_witness :
  (let s := TimerModes.mkTimerState 4 true false TimerModes.MODE_COUNTDOWN in
   TimerModes.setCountdownTimer s 0 = s /\ TimerModes.setCountdownTimer s 11 = s)
  /\ (let t := Timer.mkTimer 4 true true in
      Timer.setTimer t 0 = (t, false) /\ Timer.setTimer t 256 = (t, false)).
Proof.
  cbv zeta. split; split.
  - apply (proj1 (out_of_range_duration_rejected 0)).
    unfold TimerModes.MAX_DURATION. lia.
  - apply (proj1 (out_of_range_duration_rejected 11)).
    unfold TimerModes.MAX_DURATION. lia.
  - apply (proj2 (out_of_range_duration_rejected 0)).
    unfold Timer.MAX_DURATION. lia.
  - apply (proj2 (out_of_range_duration_rejected 256)).
    unfold Timer.MAX_DURATION. lia.
Defined.

(** ** C5 : entering the stopwatch mode *)

(** C5, as stated, fails: no procedure of the public interface maps every
    state to the configured stopwatch state. *)
Lemma no_configureStopwatch :
  ~ exists op : TimerModes.Op,
      forall s : TimerModes.TimerState,
        TimerModes.step s op
        = TimerModes.mkTimerState 0 true false TimerModes.MODE_STOPWATCH.
Proof.
  intros [op H].
  specialize (H (TimerModes.mkTimerState 0 false false TimerModes.MODE_DISABLED)).
  pose proof (step_keeps_non_stopwatch
                (TimerModes.mkTimerState 0 false false TimerModes.MODE_DISABLED) op)
    as Hk.
  rewrite H in Hk. simpl in Hk. apply Hk; [discriminate | reflexivity].
Qed.

(** C5 (amended): the interface has no procedure that configures the
    stopwatch.  Each of its six procedures leaves the mode as it was, or
    sets it to disabled (with the timer disabled), or sets it to countdown
    (with a value in [[1, MAX_DURATION]]); [MODE_STOPWATCH] is assigned by
    none, so a sequence of calls ends in stopwatch mode only from a state
    that was in it. *)
Theorem mode_written_only_disabled_or_countdown :
  (forall (s : TimerModes.TimerState) (op : TimerModes.Op),
      TimerModes.timer_mode (TimerModes.step s op) = TimerModes.timer_mode s
      \/ (TimerModes.timer_mode (TimerModes.step s op) = TimerModes.MODE_DISABLED
          /\ TimerModes.timer_enabled (TimerModes.step s op) = false)
      \/ (TimerModes.timer_mode (TimerModes.step s op) = TimerModes.MODE_COUNTDOWN
          /\ 1 <= TimerModes.timer_value (TimerModes.step s op)
               <= TimerModes.MAX_DURATION))
  /\ (forall (s : TimerModes.TimerState) (ops : list TimerModes.Op),
         TimerModes.timer_mode (TimerModes.run ops s) = TimerModes.MODE_STOPWATCH ->
         TimerModes.timer_mode s = TimerModes.MODE_STOPWATCH).
Proof.
  split; [exact step_mode|].
  intros s ops. revert s. unfold TimerModes.run.
  induction ops as [| op ops IH]; intros s Hrun; simpl in Hrun.
  - exact Hrun.
  - apply IH in Hrun.
    destruct (TimerModes.timer_mode s) eqn:Hs; try reflexivity;
      exfalso; revert Hrun; apply step_keeps_non_stopwatch;
      rewrite Hs; discriminate.
Qed.

Lemma mode_written_only_disabled_or_countdown_witness :
  let s := TimerModes.mkTimerState 2 true false TimerModes.MODE_STOPWATCH in
  let ops := [TimerModes.OpIncrementStopwatch; TimerModes.OpDecrementTimer] in
  TimerModes.timer_mode (TimerModes.run ops s) = TimerModes.MODE_STOPWATCH
  /\ TimerModes.timer_mode s = TimerModes.MODE_STOPWATCH.
Proof.
  cbv zeta. split; [reflexivity|].
  apply (proj2 mode_written_only_disabled_or_countdown
           (TimerModes.mkTimerState 2 true false TimerModes.MODE_STOPWATCH)
           [TimerModes.OpIncrementStopwatch; TimerModes.OpDecrementTimer]).
  reflexivity.
Defined.

(** ** C6 : the interrupt check, twice *)

(** C6: after one interrupt check, fired or not, a second check changes no
    field; in the variant with a result it returns [false]. *)
Theorem triggerInterrupt_twice :
  (forall s : TimerModes.TimerState,
      TimerModes.triggerInterrupt (TimerModes.triggerInterrupt s)
      = TimerModes.triggerInterrupt s)
  /\ (forall t : Timer.Timer,
         Timer.triggerInterrupt (fst (Timer.triggerInterrupt t))
         = (fst (Timer.triggerInterrupt t), false)).
Proof.
  split.
  - intros s. apply triggerInterrupt_idle.
    unfold TimerModes.triggerInterrupt.
    destruct (TimerModes.timer_enabled s) eqn:He; simpl; [|left; exact He].
    destruct (TimerModes.TimerMode_eqb _ _) eqn:Hm; simpl.
    + destruct (TimerModes.timer_value s =? 0) eqn:Hv; simpl.
      * left; reflexivity.
      * right; right. apply Z.eqb_neq, Hv.
    + right; left. apply TimerMode_eqb_neq, Hm.
  - intros t. apply Timer_triggerInterrupt_idle.
    unfold Timer.triggerInterrupt.
    destruct (Timer.enabled t) eqn:He; simpl; [|left; exact He].
    destruct (Timer.value t =? 0) eqn:Hv; simpl.
    + left; reflexivity.
    + right. apply Z.eqb_neq, Hv.
Qed.

(** ** C7 : the decrement outside its guard *)

(** C7: when the timer is disabled, or not in countdown mode, or at value
    0, the decrement changes no field; in the variant with a result (which
    has no mode) it returns [false]. *)
Theorem decrementTimer_noop_outside_guard :
  (forall s : TimerModes.TimerState,
      TimerModes.timer_enabled s = false
      \/ TimerModes.timer_mode s <> TimerModes.MODE_COUNTDOWN
      \/ TimerModes.timer_value s = 0 ->
      TimerModes.decrementTimer s = s)
  /\ (forall t : Timer.Timer,
         Timer.enabled t = false \/ Timer.value t = 0 ->
         Timer.decrementTimer t = (t, false)).
Proof.
  split.
  - intros s H. apply decrementTimer_idle.
    destruct H as [H | [H | H]]; [left | right; left | right; right];
      try assumption. lia.
  - intros t H. apply Timer_decrementTimer_idle.
    destruct H as [H | H]; [left; assumption | right; lia].
Qed.

Lemma decrementTimer_noop_outside_guard_witness :
  (let s := TimerModes.mkTimerState 6 true false TimerModes.MODE_STOPWATCH in
   TimerModes.decrementTimer s = s)
  /\ (let s := TimerModes.mkTimerState 6 false false TimerModes.MODE_COUNTDOWN in
      TimerModes.decrementTimer s = s)
  /\ (let s := TimerModes.mkTimerState 0 true false TimerModes.MODE_COUNTDOWN in
      TimerModes.decrementTimer s = s)
  /\ (let t := Timer.mkTimer 6 false false in
      Timer.decrementTimer t = (t, false))
  /\ (let t := Timer.mkTimer 0 true false in
      Timer.decrementTimer t = (t, false)).
Proof.
  cbv zeta. split; [|split; [|split; [|split]]].
  - apply (proj1 decrementTimer_noop_outside_guard).
    right; left. simpl. discriminate.
  - apply (proj1 decrementTimer_noop_outside_guard).
    left. reflexivity.
  - apply (proj1 decrementTimer_noop_outside_guard).
    right; right. reflexivity.
  - apply (proj2 decrementTimer_noop_outside_guard).
    left. reflexivity.
  - apply (proj2 decrementTimer_noop_outside_guard).
    right. reflexivity.
Defined.

(** ** C8 : reset is initialise *)

(** C8: from any state, the reset leaves the state a fresh initialisation
    leaves: value 0, disabled, flag clear, mode disabled. *)
Theorem resetTimer_is_initTimer :
  (forall s s0 : TimerModes.TimerState,
      TimerModes.resetTimer s = TimerModes.initTimer s0
      /\ TimerModes.resetTimer s
         = TimerModes.mkTimerState 0 false false TimerModes.MODE_DISABLED)
  /\ (forall t t0 : Timer.Timer,
         Timer.resetTimer t = Timer.initTimer t0
         /\ Timer.resetTimer t = Timer.mkTimer 0 false false).
Proof.
  split; intros x x0; split; reflexivity.
Qed.

(** ** C9 : a disabled mode means a disabled timer *)

(** C9: every call keeps the implication from mode disabled to timer
    disabled, and it holds after any sequence of calls on an initialised
    state. *)
Theorem disabled_mode_not_enabled :
  (forall (s : TimerModes.TimerState) (op : TimerModes.Op),
      (TimerModes.timer_mode s = TimerModes.MODE_DISABLED ->
       TimerModes.timer_enabled s = false) ->
      TimerModes.timer_mode (TimerModes.step s op) = TimerModes.MODE_DISABLED ->
      TimerModes.timer_enabled (TimerModes.step s op) = false)
  /\ (forall (s0 : TimerModes.TimerState) (ops : list TimerModes.Op),
         TimerModes.timer_mode (TimerModes.run ops (TimerModes.initTimer s0))
         = TimerModes.MODE_DISABLED ->
         TimerModes.timer_enabled (TimerModes.run ops (TimerModes.initTimer s0))
         = false).
Proof.
  split.
  - apply step_keeps_disabled_off.
  - intros s0 ops.
    apply (run_invariant
             (fun s => TimerModes.timer_mode s = TimerModes.MODE_DISABLED ->
                       TimerModes.timer_enabled s = false)
             step_keeps_disabled_off ops).
    reflexivity.
Qed.

Lemma disabled_mode_not_enabled_witness :
  let ops := [TimerModes.OpSetCountdownTimer 1; TimerModes.OpDecrementTimer;
              TimerModes.OpTriggerInterrupt] in
  let s0 := TimerModes.mkTimerState 7 true true TimerModes.MODE_STOPWATCH in
  TimerModes.timer_mode (TimerModes.run ops (TimerModes.initTimer s0))
  = TimerModes.MODE_DISABLED
  /\ TimerModes.timer_enabled (TimerModes.run ops (TimerModes.initTimer s0)) = false
  /\ TimerModes.timer_enabled
       (TimerModes.step (TimerModes.initTimer s0) TimerModes.OpDecrementTimer)
     = false.
Proof.
  cbv zeta. split; [reflexivity | split].
  - apply (proj2 disabled_mode_not_enabled). reflexivity.
  - apply (proj1 disabled_mode_not_enabled).
    + intros _. reflexivity.
    + reflexivity.
Defined.

(** ** C10 : the stopwatch mode is never entered *)

(** C10: no procedure of the interface takes a state outside the stopwatch
    mode into it; so after any sequence of calls on an initialised state
    the mode is not stopwatch, and [incrementStopwatch] changes no field. *)
Theorem stopwatch_mode_unreachable :
  (forall (s : TimerModes.TimerState) (op : TimerModes.Op),
      TimerModes.timer_mode s <> TimerModes.MODE_STOPWATCH ->
      TimerModes.timer_mode (TimerModes.step s op) <> TimerModes.MODE_STOPWATCH)
  /\ (forall (s0 : TimerModes.TimerState) (ops : list TimerModes.Op),
         let s := TimerModes.run ops (TimerModes.initTimer s0) in
         TimerModes.timer_mode s <> TimerModes.MODE_STOPWATCH
         /\ TimerModes.incrementStopwatch s = s).
Proof.
  split.
  - apply step_keeps_non_stopwatch.
  - intros s0 ops. cbv zeta.
    pose proof (run_non_stopwatch ops s0) as Hm.
    split; [exact Hm|].
    apply incrementStopwatch_idle. right. exact Hm.
Qed.

Lemma stopwatch_mode_unreachable_witness :
  let s := TimerModes.mkTimerState 5 true false TimerModes.MODE_COUNTDOWN in
  TimerModes.timer_mode (TimerModes.step s TimerModes.OpIncrementStopwatch)
  <> TimerModes.MODE_STOPWATCH
  /\ TimerModes.incrementStopwatch
       (TimerModes.run [TimerModes.OpSetCountdownTimer 5] (TimerModes.initTimer s))
     = TimerModes.run [TimerModes.OpSetCountdownTimer 5] (TimerModes.initTimer s).
Proof.
  cbv zeta. split.
  - apply (proj1 stopwatch_mode_unreachable). simpl. discriminate.
  - apply (proj2 stopwatch_mode_unreachable
             (TimerModes.mkTimerState 5 true false TimerModes.MODE_COUNTDOWN)
             [TimerModes.OpSetCountdownTimer 5]).
Defined.

(** * Further properties of the two files *)

(** ** [src/timer.c] : what the fields tell about each other *)

Section TimerModesFields.

Import TimerModes.

Definition enabled_is_countdown (s : TimerState) : Prop :=
  timer_enabled s = true <-> timer_mode s = MODE_COUNTDOWN.

Definition flag_means_expired (s : TimerState) : Prop :=
  interrupt_flag s = true ->
  timer_enabled s = false /\ timer_mode s = MODE_DISABLED /\ timer_value s = 0.

Lemma step_keeps_enabled_is_countdown (s : TimerState) (op : Op) :
  enabled_is_countdown s -> enabled_is_countdown (step s op).
Proof.
  unfold enabled_is_countdown. intros Hs.
  destruct op as [| v | | | |]; simpl.
  - split; discriminate.
  - duration_cases v MAX_DURATION.
    + rewrite setCountdownTimer_accept by lia. simpl. tauto.
    + rewrite setCountdownTimer_reject by lia. exact Hs.
    + rewrite setCountdownTimer_reject by lia. exact Hs.
  - unfold decrementTimer. destruct (_ && _); simpl; exact Hs.
  - unfold incrementStopwatch. destruct (_ && _); simpl; exact Hs.
  - unfold triggerInterrupt. destruct (_ && _); simpl; [|exact Hs].
    split; discriminate.
  - split; discriminate.
Qed.

Lemma step_keeps_flag_means_expired (s : TimerState) (op : Op) :
  flag_means_expired s -> flag_means_expired (step s op).
Proof.
  unfold flag_means_expired. intros Hs.
  destruct op as [| v | | | |]; simpl.
  - discriminate.
  - duration_cases v MAX_DURATION.
    + rewrite setCountdownTimer_accept by lia. simpl. discriminate.
    + rewrite setCountdownTimer_reject by lia. exact Hs.
    + rewrite setCountdownTimer_reject by lia. exact Hs.
  - destruct (interrupt_flag s) eqn:Hf.
    + destruct (Hs eq_refl) as [He _].
      rewrite decrementTimer_idle by (left; exact He).
      rewrite Hf. exact Hs.
    + unfold decrementTimer. destruct (_ && _); simpl; rewrite Hf; discriminate.
  - destruct (interrupt_flag s) eqn:Hf.
    + destruct (Hs eq_refl) as [He _].
      rewrite incrementStopwatch_idle by (left; exact He).
      rewrite Hf. exact Hs.
    + unfold incrementStopwatch. destruct (_ && _); simpl; rewrite Hf; discriminate.
  - unfold triggerInterrupt.
    destruct (_ && _) eqn:Hguard; simpl; [|exact Hs].
    apply andb_true_iff in Hguard. destruct Hguard as [_ Hv].
    apply Z.eqb_eq in Hv. intros _. split; [reflexivity | split; [reflexivity | exact Hv]].
  - discriminate.
Qed.

(** A run of periodic calls on a running countdown, as long as the
    decrements are fewer than the value: only the value moves. *)
Lemma ticks_before_expiry (ops : list Op) :
  forall s : TimerState,
    forallb Calls.is_tick ops = true ->
    timer_enabled s = true -> timer_mode s = MODE_COUNTDOWN ->
    Calls.decrements ops < timer_value s <= CInt.INT_MAX ->
    run ops s = set_timer_value (timer_value s - Calls.decrements ops) s.
Proof.
  unfold run, Calls.decrements.
  induction ops as [| op ops IH]; intros s Hticks He Hm Hv.
  - simpl. destruct s; unfold set_timer_value; simpl. f_equal. lia.
  - simpl in Hticks. apply andb_true_iff in Hticks. destruct Hticks as [Hop Hticks].
    destruct op; try discriminate Hop; cbn [fold_left step].
    + cbn [filter Calls.is_decrement List.length] in Hv |- *.
      rewrite Nat2Z.inj_succ in Hv |- *.
      rewrite decrementTimer_tick by (try assumption; lia).
      rewrite IH by (try assumption; cbn [set_timer_value timer_value]; lia).
      unfold set_timer_value.
      cbn [timer_value timer_enabled interrupt_flag timer_mode].
      f_equal. lia.
    + cbn [filter Calls.is_decrement] in *.
      rewrite incrementStopwatch_idle by (right; rewrite Hm; discriminate).
      apply IH; assumption.
    + cbn [filter Calls.is_decrement] in *.
      rewrite triggerInterrupt_idle by (right; right; lia).
      apply IH; assumption.
Qed.

Lemma ticks_when_disabled (ops : list Op) :
  forall s : TimerState,
    forallb Calls.is_tick ops = true -> timer_enabled s = false -> run ops s = s.
Proof.
  unfold run. induction ops as [| op ops IH]; intros s Hticks He.
  - reflexivity.
  - simpl in Hticks. apply andb_true_iff in Hticks. destruct Hticks as [Hop Hticks].
    destruct op; try discriminate Hop; cbn [fold_left step].
    + rewrite decrementTimer_idle by (left; exact He). apply IH; assumption.
    + rewrite incrementStopwatch_idle by (left; exact He). apply IH; assumption.
    + rewrite triggerInterrupt_idle by (left; exact He). apply IH; assumption.
Qed.

(** [n] decrements of a running countdown stop at zero. *)
Lemma countdown_saturates (n : nat) :
  forall v i, 0 <= v <= CInt.INT_MAX ->
    repeat_call decrementTimer n (mkTimerState v true i MODE_COUNTDOWN)
    = mkTimerState (Z.max 0 (v - Z.of_nat n)) true i MODE_COUNTDOWN.
Proof.
  induction n as [| n IH]; intros v i Hv.
  - simpl. f_equal. lia.
  - cbn [repeat_call]. destruct (Z.eq_dec v 0) as [Hz | Hz].
    + rewrite decrementTimer_idle by (right; right; simpl; lia).
      rewrite IH by lia. f_equal. lia.
    + rewrite decrementTimer_tick by (simpl; try reflexivity; lia).
      unfold set_timer_value. cbn [timer_value timer_enabled interrupt_flag timer_mode].
      rewrite IH by lia. f_equal. lia.
Qed.

End TimerModesFields.

(** ** [src/unnamed/part_000] : results, saturation and the flag *)

Section TimerResults.

Import Timer.

Lemma wrap_moves (z : Z) : CInt.wrap (z - 1) <> z.
Proof.
  unfold CInt.wrap. intros H.
  pose proof (Z.div_mod (z - 1 + 2147483648) 4294967296) as Hdm.
  lia.
Qed.

Lemma Timer_step_keeps_flag_means_expired (t : Timer) (op : Op) :
  (interrupt_flag t = true -> enabled t = false /\ value t = 0) ->
  interrupt_flag (step t op) = true ->
  enabled (step t op) = false /\ value (step t op) = 0.
Proof.
  intros Ht. destruct op as [| d | | |]; simpl.
  - discriminate.
  - duration_cases d MAX_DURATION.
    + rewrite setTimer_accept by lia. simpl. discriminate.
    + rewrite setTimer_reject by lia. exact Ht.
    + rewrite setTimer_reject by lia. exact Ht.
  - destruct (interrupt_flag t) eqn:Hf.
    + destruct (Ht eq_refl) as [He _].
      rewrite Timer_decrementTimer_idle by (left; exact He).
      simpl. rewrite Hf. exact Ht.
    + unfold decrementTimer. destruct (_ && _); simpl; rewrite Hf; discriminate.
  - unfold triggerInterrupt.
    destruct (_ && _) eqn:Hguard; simpl; [|exact Ht].
    apply andb_true_iff in Hguard. destruct Hguard as [_ Hv].
    apply Z.eqb_eq in Hv. intros _. split; [reflexivity | exact Hv].
  - discriminate.
Qed.

(** [n] decrements of an enabled timer: the value stops at zero, and the
    calls that returned [true] are the ones that moved it. *)
Lemma Timer_countdown_saturates (n : nat) :
  forall v i, 0 <= v <= CInt.INT_MAX ->
    repeat_call decrementTimer n (mkTimer v true i)
    = mkTimer (Z.max 0 (v - Z.of_nat n)) true i
    /\ count_true decrementTimer n (mkTimer v true i) = Nat.min n (Z.to_nat v).
Proof.
  induction n as [| n IH]; intros v i Hv.
  - simpl. split; [f_equal; lia | reflexivity].
  - cbn [repeat_call count_true]. destruct (Z.eq_dec v 0) as [Hz | Hz].
    + rewrite Timer_decrementTimer_idle by (right; simpl; lia).
      cbn [fst snd]. destruct (IH v i Hv) as [IHs IHc].
      rewrite IHs, IHc. subst v. split; [f_equal; lia | simpl; lia].
    + rewrite Timer_decrementTimer_tick by (simpl; try reflexivity; lia).
      unfold set_value. cbn [fst snd value enabled interrupt_flag].
      destruct (IH (v - 1) i ltac:(lia)) as [IHs IHc].
      rewrite IHs, IHc. split; [f_equal; lia | lia].
Qed.

End TimerResults.

(** ** The two files agree on the countdown *)

Section VariantsAgree.

Import Variants.

Lemma forget_mode_step (s : TimerModes.TimerState) (op : TimerModes.Op) :
  enabled_is_countdown s -> same_verdict op ->
  forget_mode (TimerModes.step s op) = Timer.run (counterpart op) (forget_mode s).
Proof.
  unfold enabled_is_countdown. intros Hs Hop.
  destruct s as [v e i m]. simpl in Hs.
  destruct op as [| d | | | |]; cbn [TimerModes.step counterpart Timer.run fold_left Timer.step].
  - reflexivity.
  - simpl in Hop. unfold TimerModes.MAX_DURATION, Timer.MAX_DURATION in Hop.
    destruct (Z.le_gt_cases 1 d) as [Hlo | Hlo];
      [destruct (Z.le_gt_cases d 10) as [Hhi | Hhi] |].
    + rewrite setCountdownTimer_accept by (unfold TimerModes.MAX_DURATION; lia).
      rewrite setTimer_accept by (unfold Timer.MAX_DURATION; lia). reflexivity.
    + rewrite setCountdownTimer_reject by (unfold TimerModes.MAX_DURATION; lia).
      rewrite setTimer_reject by (unfold Timer.MAX_DURATION; lia). reflexivity.
    + rewrite setCountdownTimer_reject by (unfold TimerModes.MAX_DURATION; lia).
      rewrite setTimer_reject by (unfold Timer.MAX_DURATION; lia). reflexivity.
  - unfold TimerModes.decrementTimer, Timer.decrementTimer, forget_mode. simpl.
    destruct e; simpl; [|reflexivity].
    rewrite (proj1 Hs eq_refl). simpl.
    destruct (0 <? v); reflexivity.
  - unfold TimerModes.incrementStopwatch, forget_mode. simpl.
    destruct e; simpl; [|reflexivity].
    rewrite (proj1 Hs eq_refl). reflexivity.
  - unfold TimerModes.triggerInterrupt, Timer.triggerInterrupt, forget_mode. simpl.
    destruct e; simpl; [|reflexivity].
    rewrite (proj1 Hs eq_refl). simpl.
    destruct (v =? 0); reflexivity.
  - reflexivity.
Qed.

Lemma forget_mode_run (ops : list TimerModes.Op) :
  forall s : TimerModes.TimerState,
    enabled_is_countdown s -> Forall same_verdict ops ->
    forget_mode (TimerModes.run ops s)
    = Timer.run (flat_map counterpart ops) (forget_mode s).
Proof.
  induction ops as [| op ops IH]; intros s Hs Hops.
  - reflexivity.
  - inversion Hops as [| op' ops' Hop Hrest]; subst.
    cbn [flat_map]. unfold Timer.run. rewrite fold_left_app.
    fold (Timer.run (counterpart op) (forget_mode s)).
    rewrite <- forget_mode_step by assumption.
    apply IH; [apply step_keeps_enabled_is_countdown, Hs | exact Hrest].
Qed.

End VariantsAgree.

(** ** [src/unnamed/part_000] : the loop of [main] *)

Section DriverLoop.

Import Timer.

(** The lines [Timer decremented: n-1] down to [Timer decremented: 0]. *)
Definition countdown_lines (n : nat) : list string :=
  map (fun k => printf_decremented (Z.of_nat k)) (rev (seq 0 n)).

Lemma countdown_lines_S (n : nat) :
  countdown_lines (S n) = printf_decremented (Z.of_nat n) :: countdown_lines n.
Proof.
  unfold countdown_lines. rewrite seq_S, rev_app_distr. reflexivity.
Qed.

Lemma main_loop_stopped (fuel : nat) (t : Timer) (out : list string) :
  enabled t = false -> main_loop (S fuel) t out = Some (t, out).
Proof. intros He. simpl. rewrite He. reflexivity. Qed.

(** One iteration on a running timer above 1: a decrement, no interrupt. *)
Lemma main_loop_body_counting (v : Z) (i : bool) (out : list string) :
  1 < v <= CInt.INT_MAX ->
  main_loop_body (mkTimer v true i) out
  = (mkTimer (v - 1) true i, (out ++ [printf_decremented (v - 1)])%list).
Proof.
  intros Hv. unfold main_loop_body.
  rewrite Timer_decrementTimer_tick by (simpl; try reflexivity; lia).
  unfold set_value. cbn [value enabled interrupt_flag].
  rewrite Timer_triggerInterrupt_idle by (right; simpl; lia).
  reflexivity.
Qed.

(** The iteration at 1: the decrement to zero and the interrupt. *)
Lemma main_loop_body_last (i : bool) (out : list string) :
  main_loop_body (mkTimer 1 true i) out
  = (mkTimer 0 false true,
     (out ++ [printf_decremented 0] ++ [printf_interrupt])%list).
Proof.
  unfold main_loop_body. cbn. rewrite <- app_assoc. reflexivity.
Qed.

(** The iteration at 0: no decrement, the interrupt. *)
Lemma main_loop_body_zero (i : bool) (out : list string) :
  main_loop_body (mkTimer 0 true i) out
  = (mkTimer 0 false true, (out ++ [printf_interrupt])%list).
Proof. reflexivity. Qed.

(** An enabled timer with a negative value is left as it is. *)
Lemma main_loop_body_negative (t : Timer) (out : list string) :
  enabled t = true -> value t < 0 -> main_loop_body t out = (t, out).
Proof.
  intros He Hv. unfold main_loop_body.
  rewrite Timer_decrementTimer_idle by (right; lia).
  rewrite Timer_triggerInterrupt_idle by (right; lia).
  reflexivity.
Qed.

Lemma main_loop_counts_down (n : nat) :
  forall (fuel : nat) (i : bool) (out : list string),
    Z.of_nat (S n) <= CInt.INT_MAX -> (S n < fuel)%nat ->
    main_loop fuel (mkTimer (Z.of_nat (S n)) true i) out
    = Some (mkTimer 0 false true,
            (out ++ countdown_lines (S n) ++ [printf_interrupt])%list).
Proof.
  induction n as [| n IH]; intros fuel i out Hmax Hfuel.
  - destruct fuel as [| [| fuel]]; try lia.
    change (Z.of_nat 1) with 1.
    cbn [main_loop enabled]. rewrite main_loop_body_last.
    cbn [enabled]. reflexivity.
  - destruct fuel as [| fuel]; try lia.
    cbn [main_loop enabled].
    rewrite main_loop_body_counting by lia.
    replace (Z.of_nat (S (S n)) - 1) with (Z.of_nat (S n)) by lia.
    rewrite IH by lia.
    rewrite (countdown_lines_S (S n)).
    rewrite <- app_assoc. reflexivity.
Qed.

Lemma main_loop_from (t : Timer) (out : list string) (fuel : nat) :
  enabled t = true -> 0 <= value t <= CInt.INT_MAX ->
  (Z.to_nat (value t) + 2 <= fuel)%nat ->
  main_loop fuel t out
  = Some (mkTimer 0 false true,
          (out ++ countdown_lines (Z.to_nat (value t)) ++ [printf_interrupt])%list).
Proof.
  destruct t as [v e i]. simpl. intros He Hv Hfuel. subst e.
  destruct (Z.to_nat v) as [| n] eqn:Hn.
  - assert (v = 0) by lia. subst v.
    destruct fuel as [| [| fuel]]; try lia.
    cbn [main_loop enabled]. rewrite main_loop_body_zero.
    cbn [enabled]. reflexivity.
  - assert (Hvn : v = Z.of_nat (S n)) by lia. rewrite Hvn.
    apply main_loop_counts_down; lia.
Qed.

Lemma main_loop_stuck (fuel : nat) :
  forall (t : Timer) (out : list string),
    enabled t = true -> value t < 0 -> main_loop fuel t out = None.
Proof.
  induction fuel as [| fuel IH]; intros t out He Hv.
  - reflexivity.
  - cbn [main_loop]. rewrite He.
    rewrite main_loop_body_negative by assumption.
    apply IH; assumption.
Qed.

End DriverLoop.

(** * Further theorems *)

(** ** [src/timer.c] *)

(** X1: after any sequence of calls on an initialised state, the timer is
    enabled exactly when its mode is countdown. *)
Theorem enabled_iff_countdown_mode
        (s0 : TimerModes.TimerState) (ops : list TimerModes.Op) :
  TimerModes.timer_enabled (TimerModes.run ops (TimerModes.initTimer s0)) = true
  <-> TimerModes.timer_mode (TimerModes.run ops (TimerModes.initTimer s0))
      = TimerModes.MODE_COUNTDOWN.
Proof.
  apply (run_invariant enabled_is_countdown step_keeps_enabled_is_countdown ops).
  unfold enabled_is_countdown. simpl. split; discriminate.
Qed.

(** X2: after any sequence of calls on an initialised state, a raised
    interrupt flag means an expired countdown: the timer is disabled, its
    mode is disabled and its value is 0. *)
Theorem raised_flag_means_expired
        (s0 : TimerModes.TimerState) (ops : list TimerModes.Op) :
  TimerModes.interrupt_flag (TimerModes.run ops (TimerModes.initTimer s0)) = true ->
  TimerModes.timer_enabled (TimerModes.run ops (TimerModes.initTimer s0)) = false
  /\ TimerModes.timer_mode (TimerModes.run ops (TimerModes.initTimer s0))
     = TimerModes.MODE_DISABLED
  /\ TimerModes.timer_value (TimerModes.run ops (TimerModes.initTimer s0)) = 0.
Proof.
  apply (run_invariant flag_means_expired step_keeps_flag_means_expired ops).
  unfold flag_means_expired. simpl. discriminate.
Qed.

Lemma raised_flag_means_expired_witness :
  let s0 := TimerModes.mkTimerState 9 true true TimerModes.MODE_STOPWATCH in
  let ops := [TimerModes.OpSetCountdownTimer 2; TimerModes.OpDecrementTimer;
              TimerModes.OpDecrementTimer; TimerModes.OpTriggerInterrupt;
              TimerModes.OpDecrementTimer] in
  TimerModes.timer_enabled (TimerModes.run ops (TimerModes.initTimer s0)) = false
  /\ TimerModes.timer_mode (TimerModes.run ops (TimerModes.initTimer s0))
     = TimerModes.MODE_DISABLED
  /\ TimerModes.timer_value (TimerModes.run ops (TimerModes.initTimer s0)) = 0.
Proof.
  cbv zeta.
  apply (raised_flag_means_expired
           (TimerModes.mkTimerState 9 true true TimerModes.MODE_STOPWATCH)
           [TimerModes.OpSetCountdownTimer 2; TimerModes.OpDecrementTimer;
            TimerModes.OpDecrementTimer; TimerModes.OpTriggerInterrupt;
            TimerModes.OpDecrementTimer]).
  reflexivity.
Defined.

(** X3: [n] calls of [decrementTimer] on a running countdown with value
    [v >= 0] leave [max 0 (v - n)] and write no other field: the countdown
    stops at zero, however often it is called. *)
Theorem decrementTimer_stops_at_zero (s : TimerModes.TimerState) (n : nat) :
  TimerModes.timer_enabled s = true ->
  TimerModes.timer_mode s = TimerModes.MODE_COUNTDOWN ->
  0 <= TimerModes.timer_value s <= CInt.INT_MAX ->
  TimerModes.repeat_call TimerModes.decrementTimer n s
  = TimerModes.set_timer_value
      (Z.max 0 (TimerModes.timer_value s - Z.of_nat n)) s.
Proof.
  destruct s as [v e i m]. simpl. intros He Hm Hv. subst e m.
  apply countdown_saturates, Hv.
Qed.

Lemma decrementTimer_stops_at_zero_witness :
  TimerModes.repeat_call TimerModes.decrementTimer 7
    (TimerModes.mkTimerState 4 true false TimerModes.MODE_COUNTDOWN)
  = TimerModes.mkTimerState 0 true false TimerModes.MODE_COUNTDOWN.
Proof.
  apply (decrementTimer_stops_at_zero
           (TimerModes.mkTimerState 4 true false TimerModes.MODE_COUNTDOWN) 7).
  - reflexivity.
  - reflexivity.
  - simpl. unfold CInt.INT_MAX. lia.
Defined.

(** X4: after an accepted [setCountdownTimer] with duration [d], any
    interleaving of decrements, interrupt checks and stopwatch increments
    that holds fewer than [d] decrements leaves the countdown running at
    [d] minus the number of decrements, with the interrupt flag clear: the
    interrupt is never raised early. *)
Theorem no_interrupt_before_expiry
        (s : TimerModes.TimerState) (d : Z) (ops : list TimerModes.Op) :
  1 <= d <= TimerModes.MAX_DURATION ->
  forallb Calls.is_tick ops = true ->
  Calls.decrements ops < d ->
  TimerModes.run ops (TimerModes.setCountdownTimer s d)
  = TimerModes.mkTimerState (d - Calls.decrements ops) true false
                            TimerModes.MODE_COUNTDOWN.
Proof.
  intros Hd Hticks Hdec.
  rewrite setCountdownTimer_accept by exact Hd.
  rewrite ticks_before_expiry; try assumption; try reflexivity.
  simpl. unfold TimerModes.MAX_DURATION, CInt.INT_MAX in *. lia.
Qed.

Lemma no_interrupt_before_expiry_witness :
  TimerModes.run
    [TimerModes.OpTriggerInterrupt; TimerModes.OpDecrementTimer;
     TimerModes.OpIncrementStopwatch; TimerModes.OpDecrementTimer;
     TimerModes.OpTriggerInterrupt]
    (TimerModes.setCountdownTimer
       (TimerModes.mkTimerState 0 false true TimerModes.MODE_DISABLED) 3)
  = TimerModes.mkTimerState (3 - 2) true false TimerModes.MODE_COUNTDOWN.
Proof.
  apply (no_interrupt_before_expiry
           (TimerModes.mkTimerState 0 false true TimerModes.MODE_DISABLED) 3
           [TimerModes.OpTriggerInterrupt; TimerModes.OpDecrementTimer;
            TimerModes.OpIncrementStopwatch; TimerModes.OpDecrementTimer;
            TimerModes.OpTriggerInterrupt]).
  - unfold TimerModes.MAX_DURATION. lia.
  - reflexivity.
  - vm_compute. reflexivity.
Defined.

(** X5: a disabled timer ignores every sequence of decrements, stopwatch
    increments and interrupt checks: its state changes only through
    [initTimer], [setCountdownTimer] or [resetTimer]. *)
Theorem disabled_timer_ignores_ticks
        (s : TimerModes.TimerState) (ops : list TimerModes.Op) :
  TimerModes.timer_enabled s = false ->
  forallb Calls.is_tick ops = true ->
  TimerModes.run ops s = s.
Proof.
  intros He Hticks. apply ticks_when_disabled; assumption.
Qed.

Lemma disabled_timer_ignores_ticks_witness :
  let s := TimerModes.mkTimerState 6 false true TimerModes.MODE_STOPWATCH in
  TimerModes.run
    [TimerModes.OpIncrementStopwatch; TimerModes.OpDecrementTimer;
     TimerModes.OpTriggerInterrupt] s = s.
Proof.
  cbv zeta.
  apply (disabled_timer_ignores_ticks
           (TimerModes.mkTimerState 6 false true TimerModes.MODE_STOPWATCH)
           [TimerModes.OpIncrementStopwatch; TimerModes.OpDecrementTimer;
            TimerModes.OpTriggerInterrupt]).
  - reflexivity.
  - reflexivity.
Defined.

(** ** [src/unnamed/part_000] *)

(** X6: after any sequence of calls on an initialised timer, a raised
    interrupt flag means the timer is disabled with value 0. *)
Theorem Timer_raised_flag_means_expired
        (t0 : Timer.Timer) (ops : list Timer.Op) :
  Timer.interrupt_flag (Timer.run ops (Timer.initTimer t0)) = true ->
  Timer.enabled (Timer.run ops (Timer.initTimer t0)) = false
  /\ Timer.value (Timer.run ops (Timer.initTimer t0)) = 0.
Proof.
  apply (Timer_run_invariant
           (fun t => Timer.interrupt_flag t = true ->
                     Timer.enabled t = false /\ Timer.value t = 0)
           Timer_step_keeps_flag_means_expired ops).
  simpl. discriminate.
Qed.

Lemma Timer_raised_flag_means_expired_witness :
  let t0 := Timer.mkTimer 9 true true in
  let ops := [Timer.OpSetTimer 1; Timer.OpDecrementTimer;
              Timer.OpTriggerInterrupt; Timer.OpDecrementTimer] in
  Timer.enabled (Timer.run ops (Timer.initTimer t0)) = false
  /\ Timer.value (Timer.run ops (Timer.initTimer t0)) = 0.
Proof.
  cbv zeta.
  apply (Timer_raised_flag_means_expired (Timer.mkTimer 9 true true)
           [Timer.OpSetTimer 1; Timer.OpDecrementTimer;
            Timer.OpTriggerInterrupt; Timer.OpDecrementTimer]).
  reflexivity.
Defined.

(** X7: [n] calls of [decrementTimer] on an enabled timer with value
    [v >= 0] leave [max 0 (v - n)] and write no other field, and exactly
    [min n v] of the calls return [true]. *)
Theorem Timer_decrementTimer_stops_at_zero (t : Timer.Timer) (n : nat) :
  Timer.enabled t = true ->
  0 <= Timer.value t <= CInt.INT_MAX ->
  Timer.repeat_call Timer.decrementTimer n t
  = Timer.set_value (Z.max 0 (Timer.value t - Z.of_nat n)) t
  /\ Timer.count_true Timer.decrementTimer n t
     = Nat.min n (Z.to_nat (Timer.value t)).
Proof.
  destruct t as [v e i]. simpl. intros He Hv. subst e.
  apply Timer_countdown_saturates, Hv.
Qed.

Lemma Timer_decrementTimer_stops_at_zero_witness :
  Timer.repeat_call Timer.decrementTimer 7 (Timer.mkTimer 4 true false)
  = Timer.mkTimer 0 true false
  /\ Timer.count_true Timer.decrementTimer 7 (Timer.mkTimer 4 true false) = 4%nat.
Proof.
  apply (Timer_decrementTimer_stops_at_zero (Timer.mkTimer 4 true false) 7).
  - reflexivity.
  - simpl. unfold CInt.INT_MAX. lia.
Defined.

(** X8: [decrementTimer] and [triggerInterrupt] return [true] exactly when
    they changed the state.  [setTimer] does not: an accepted call can leave
    the state as it was. *)
Theorem Timer_result_reports_change :
  (forall t : Timer.Timer,
      (snd (Timer.decrementTimer t) = true <-> fst (Timer.decrementTimer t) <> t)
      /\ (snd (Timer.triggerInterrupt t) = true
          <-> fst (Timer.triggerInterrupt t) <> t))
  /\ (exists (t : Timer.Timer) (d : Z),
         snd (Timer.setTimer t d) = true /\ fst (Timer.setTimer t d) = t).
Proof.
  split.
  - intros [v e i]. split.
    + unfold Timer.decrementTimer. simpl.
      destruct (e && (0 <? v)); simpl.
      * split; [|reflexivity]. intros _ H.
        unfold Timer.set_value in H. simpl in H. injection H as H.
        exact (wrap_moves v H).
      * split; [discriminate | intros H; contradiction H; reflexivity].
    + unfold Timer.triggerInterrupt. simpl.
      destruct e; simpl.
      * destruct (v =? 0); simpl.
        -- split; [intros _; discriminate | reflexivity].
        -- split; [discriminate | intros H; contradiction H; reflexivity].
      * split; [discriminate | intros H; contradiction H; reflexivity].
  - exists (Timer.mkTimer 5 true false), 5. split; reflexivity.
Qed.

(** X9: started on an enabled timer with value [v >= 0], the loop of
    [main] ends: given at least [v + 2] evaluations of its condition it
    leaves the timer disabled at 0 with the interrupt flag raised, having
    printed the decrements from [v - 1] down to 0 and then the interrupt
    line, after what was printed before. *)
Theorem main_loop_terminates
        (t : Timer.Timer) (out : list string) (fuel : nat) :
  Timer.enabled t = true ->
  0 <= Timer.value t <= CInt.INT_MAX ->
  (Z.to_nat (Timer.value t) + 2 <= fuel)%nat ->
  Timer.main_loop fuel t out
  = Some (Timer.mkTimer 0 false true,
          (out
           ++ map (fun k => Timer.printf_decremented (Z.of_nat k))
                  (rev (seq 0 (Z.to_nat (Timer.value t))))
           ++ [Timer.printf_interrupt])%list).
Proof.
  intros He Hv Hfuel. apply main_loop_from; assumption.
Qed.

Lemma main_loop_terminates_witness :
  Timer.main_loop 4 (Timer.mkTimer 2 true false) []
  = Some (Timer.mkTimer 0 false true,
          [Timer.printf_decremented 1; Timer.printf_decremented 0;
           Timer.printf_interrupt]).
Proof.
  apply (main_loop_terminates (Timer.mkTimer 2 true false) [] 4).
  - reflexivity.
  - simpl. unfold CInt.INT_MAX. lia.
  - simpl. lia.
Defined.

(** X10: started on an enabled timer with a negative value, the loop of
    [main] never ends: neither call changes the state, so the condition
    stays true for every number of iterations. *)
Theorem main_loop_diverges_below_zero
        (t : Timer.Timer) (out : list string) (fuel : nat) :
  Timer.enabled t = true ->
  Timer.value t < 0 ->
  Timer.main_loop fuel t out = None.
Proof.
  intros He Hv. apply main_loop_stuck; assumption.
Qed.

Lemma main_loop_diverges_below_zero_witness :
  Timer.main_loop 1000 (Timer.mkTimer (-1) true false) [] = None.
Proof.
  apply (main_loop_diverges_below_zero (Timer.mkTimer (-1) true false) [] 1000).
  - reflexivity.
  - simpl. lia.
Defined.

(** X11: on every timer state that a sequence of calls on an initialised
    timer can leave, the loop of [main] ends within 257 evaluations of its
    condition, with the timer disabled and the earlier output kept as a
    prefix. *)
Theorem main_loop_terminates_after_calls
        (t0 : Timer.Timer) (ops : list Timer.Op) (out : list string) (fuel : nat) :
  (257 <= fuel)%nat ->
  exists (t' : Timer.Timer) (lines : list string),
    Timer.main_loop fuel (Timer.run ops (Timer.initTimer t0)) out
    = Some (t', (out ++ lines)%list)
    /\ Timer.enabled t' = false.
Proof.
  intros Hfuel.
  assert (Hv : 0 <= Timer.value (Timer.run ops (Timer.initTimer t0))
               <= Timer.MAX_DURATION).
  { apply (Timer_run_invariant
             (fun t => 0 <= Timer.value t <= Timer.MAX_DURATION)
             Timer_step_bounded ops).
    simpl. unfold Timer.MAX_DURATION. lia. }
  unfold Timer.MAX_DURATION in Hv.
  destruct (Timer.enabled (Timer.run ops (Timer.initTimer t0))) eqn:He.
  - eexists. eexists. split.
    + apply main_loop_from; [exact He | unfold CInt.INT_MAX; lia | lia].
    + reflexivity.
  - exists (Timer.run ops (Timer.initTimer t0)), []. split.
    + destruct fuel as [| fuel]; [lia|].
      rewrite main_loop_stopped by exact He. rewrite app_nil_r. reflexivity.
    + exact He.
Qed.

Lemma main_loop_terminates_after_calls_witness :
  exists (t' : Timer.Timer) (lines : list string),
    Timer.main_loop 257
      (Timer.run [Timer.OpSetTimer 255; Timer.OpDecrementTimer]
                 (Timer.initTimer (Timer.mkTimer 3 true true)))
      []
    = Some (t', ([] ++ lines)%list)
    /\ Timer.enabled t' = false.
Proof.
  apply (main_loop_terminates_after_calls (Timer.mkTimer 3 true true)
           [Timer.OpSetTimer 255; Timer.OpDecrementTimer] [] 257).
  lia.
Defined.

(** X12: [main] ends with exit status 0 whatever the uninitialised timer
    held, given at least 6 evaluations of the loop condition, and prints
    the set-up lines, the five decrements from 4 to 0, the interrupt, and
    the reset line with all three fields 0. *)
Theorem main_prints_the_countdown (uninit : Timer.Timer) (fuel : nat) :
  (6 <= fuel)%nat ->
  Timer.main uninit fuel
  = Some (0,
          map (fun line => (line ++ Timer.newline)%string)
              ["Initializing Timer..."%string;
               "Timer set to 5."%string;
               "Timer decremented: 4"%string;
               "Timer decremented: 3"%string;
               "Timer decremented: 2"%string;
               "Timer decremented: 1"%string;
               "Timer decremented: 0"%string;
               "Interrupt triggered!"%string;
               "Resetting Timer..."%string;
               "Timer reset. Enabled: 0, Value: 0, Interrupt: 0"%string]).
Proof.
  intros Hfuel. unfold Timer.main.
  rewrite Timer_initTimer_const.
  rewrite setTimer_accept by (unfold Timer.MAX_DURATION; lia).
  change 5 with (Z.of_nat 5).
  rewrite main_loop_counts_down by (unfold CInt.INT_MAX; lia).
  reflexivity.
Qed.

Lemma main_prints_the_countdown_witness :
  exists out : list string,
    Timer.main (Timer.mkTimer (-7) true true) 6 = Some (0, out)
    /\ List.length out = 10%nat.
Proof.
  eexists. split.
  - apply (main_prints_the_countdown (Timer.mkTimer (-7) true true) 6). lia.
  - reflexivity.
Defined.

(** ** The two files together *)

(** X13: on an initialised state, a sequence of calls of [src/timer.c]
    leaves in the value, the enabled bit and the interrupt flag what the
    corresponding calls of [src/unnamed/part_000] leave
    ([incrementStopwatch] corresponding to no call), provided no requested
    duration lies between the two bounds, in 11..255, where only the
    second file accepts it. *)
Theorem variants_agree
        (s0 : TimerModes.TimerState) (t0 : Timer.Timer)
        (ops : list TimerModes.Op) :
  Forall Variants.same_verdict ops ->
  Variants.forget_mode (TimerModes.run ops (TimerModes.initTimer s0))
  = Timer.run (flat_map Variants.counterpart ops) (Timer.initTimer t0).
Proof.
  intros Hops.
  rewrite forget_mode_run; [reflexivity | | exact Hops].
  unfold enabled_is_countdown. simpl. split; discriminate.
Qed.

Lemma variants_agree_witness :
  let ops := [TimerModes.OpSetCountdownTimer 2; TimerModes.OpDecrementTimer;
              TimerModes.OpIncrementStopwatch; TimerModes.OpSetCountdownTimer 300;
              TimerModes.OpDecrementTimer; TimerModes.OpTriggerInterrupt] in
  Variants.forget_mode
    (TimerModes.run ops
       (TimerModes.initTimer
          (TimerModes.mkTimerState 8 true true TimerModes.MODE_STOPWATCH)))
  = Timer.run (flat_map Variants.counterpart ops)
              (Timer.initTimer (Timer.mkTimer 8 true true)).
Proof.
  cbv zeta.
  apply (variants_agree
           (TimerModes.mkTimerState 8 true true TimerModes.MODE_STOPWATCH)
           (Timer.mkTimer 8 true true)
           [TimerModes.OpSetCountdownTimer 2; TimerModes.OpDecrementTimer;
            TimerModes.OpIncrementStopwatch; TimerModes.OpSetCountdownTimer 300;
            TimerModes.OpDecrementTimer; TimerModes.OpTriggerInterrupt]).
  repeat constructor; simpl;
    unfold TimerModes.MAX_DURATION, Timer.MAX_DURATION; lia.
Defined.
